(** * Table cells and pagination controls of the NIAGADS visualisation
      components: a shallow embedding and its properties.

    Sources embedded here:
    - [src/components/Table/Cell.tsx]: [validateCellType], [__isNull],
      [__resolveValue], [__resolveBooleanValue], [getCellValue],
      [resolveCell], [renderCell];
    - [src/components/Table/PaginationControls.tsx]:
      [__generatePageSizeOptions] and the displayed row range. *)

From Stdlib Require Import ZArith List String Ascii Bool Lia DecimalString.
From Stdlib Require Import Floats.
Import ListNotations.

(** ** JavaScript values *)

Module JS.

Local Open Scope string_scope.

#[local] Set Warnings "-register-all".

(** The run-time values the table code handles.  Numbers are IEEE binary64
    (primitive floats), strings are byte strings, a plain object is the
    list of its own enumerable properties in insertion order. *)
Inductive jsvalue : Type :=
| VUndefined
| VNull
| VBool (b : bool)
| VNum (n : float)
| VStr (s : string)
| VObj (props : list (string * jsvalue))
| VArr (items : list jsvalue).

Inductive error : Type :=
| TypeError (message : string)
| Error (message : string).

(** A computation that returns normally or throws. *)
Inductive result (A : Type) : Type :=
| Ok (a : A)
| Throw (e : error).

Arguments Ok {A} a.
Arguments Throw {A} e.

Definition bind {A B : Type} (r : result A) (k : A -> result B) : result B :=
  match r with
  | Ok a => k a
  | Throw e => Throw e
  end.

Notation "x <- r ;; k" := (bind r (fun x => k))
  (at level 61, r at next level, right associativity).

(** Running the callbacks of [Array.prototype.map] left to right: the first
    one that throws ends the whole call. *)
Fixpoint sequence {A : Type} (rs : list (result A)) : result (list A) :=
  match rs with
  | [] => Ok []
  | r :: rs' => a <- r ;; l <- sequence rs' ;; Ok (a :: l)
  end.

(** ToBoolean: [false], [0], [-0], [NaN], the empty string, [null] and
    [undefined] are falsy. *)
Definition truthy (v : jsvalue) : bool :=
  match v with
  | VUndefined | VNull => false
  | VBool b => b
  | VNum n => negb (PrimFloat.is_zero n || PrimFloat.is_nan n)
  | VStr s => negb (s =? "")
  | VObj _ | VArr _ => true
  end.

(** [String.prototype.toUpperCase] on the ASCII letters; every other byte is
    left as it is.  None of the strings the code compares the result with
    contains a letter that a non-ASCII character upper-cases to. *)
Definition upper_char (c : ascii) : ascii :=
  let n := nat_of_ascii c in
  if ((97 <=? n) && (n <=? 122))%nat then ascii_of_nat (n - 32) else c.

Definition lower_char (c : ascii) : ascii :=
  let n := nat_of_ascii c in
  if ((65 <=? n) && (n <=? 90))%nat then ascii_of_nat (n + 32) else c.

Fixpoint toUpperCase (s : string) : string :=
  match s with
  | EmptyString => EmptyString
  | String c s' => String (upper_char c) (toUpperCase s')
  end.

Fixpoint toLowerCase (s : string) : string :=
  match s with
  | EmptyString => EmptyString
  | String c s' => String (lower_char c) (toLowerCase s')
  end.

(** [Array.prototype.includes] on an array of strings. *)
Definition includes (l : list string) (s : string) : bool :=
  existsb (String.eqb s) l.

(** *** Plain objects *)

Definition object := list (string * jsvalue).

Fixpoint obj_get (k : string) (o : object) : jsvalue :=
  match o with
  | [] => VUndefined
  | (k', v) :: o' => if k =? k' then v else obj_get k o'
  end.

(** [Object.prototype.hasOwnProperty] *)
Fixpoint obj_has (k : string) (o : object) : bool :=
  match o with
  | [] => false
  | (k', _) :: o' => (k =? k') || obj_has k o'
  end.

(** [o[k] = v]: an existing property keeps its place, a new one goes last. *)
Fixpoint obj_set (k : string) (v : jsvalue) (o : object) : object :=
  match o with
  | [] => [(k, v)]
  | (k', v') :: o' => if k =? k' then (k, v) :: o' else (k', v') :: obj_set k v o'
  end.

(** The own enumerable properties [Object.assign] copies from a source.
    Every source in this file is a plain object. *)
Definition own_props (v : jsvalue) : object :=
  match v with
  | VObj o => o
  | _ => []
  end.

(** [Object.assign(target, source)]: the source's properties are written
    onto the target one by one, so a key of the source overwrites the same
    key of the target. *)
Definition Object_assign (target : object) (source : jsvalue) : jsvalue :=
  VObj (fold_left (fun t kv => obj_set (fst kv) (snd kv) t) (own_props source) target).

(** Reading a property [v.k] of a value that is neither [null] nor
    [undefined]; none of the keys read in this file exists on a primitive. *)
Definition prop (k : string) (v : jsvalue) : jsvalue :=
  match v with
  | VObj o => obj_get k o
  | _ => VUndefined
  end.

(** [v === w] against [null], [undefined], [true]. *)
Definition is_null (v : jsvalue) : bool :=
  match v with VNull => true | _ => false end.

Definition is_undefined (v : jsvalue) : bool :=
  match v with VUndefined => true | _ => false end.

Definition is_true (v : jsvalue) : bool :=
  match v with VBool true => true | _ => false end.

End JS.

Import JS.

(** ** Cell.tsx *)

Module Cell.

Local Open Scope string_scope.

Section WithBuiltins.

(** One built-in stays abstract: [Number.prototype.toString], used when an
    array of values is joined. *)
Variable Number_toString : float -> string.

(** ToString of a value; an array is joined with a comma, and [null] and
    [undefined] elements of an array give the empty string. *)
Fixpoint ToString (v : jsvalue) : string :=
  match v with
  | VUndefined => "undefined"
  | VNull => "null"
  | VBool true => "true"
  | VBool false => "false"
  | VNum n => Number_toString n
  | VStr s => s
  | VObj _ => "[object Object]"
  | VArr items =>
      String.concat ","
        (map (fun x => match x with
                       | VUndefined | VNull => ""
                       | _ => ToString x
                       end) items)
  end.

(** The string an element contributes to [Array.prototype.join]. *)
Definition join_element (v : jsvalue) : string :=
  match v with
  | VUndefined | VNull => ""
  | _ => ToString v
  end.

(** [Array.prototype.join] *)
Definition Array_join (sep : string) (items : list jsvalue) : string :=
  String.concat sep (map join_element items).

Definition NA_STRINGS : list string := ["NA"; "N/A"; "NULL"; "."; ""].
Definition DEFAULT_NA_STRING : string := "NA".

Definition CELL_TYPE_VALIDATION_REFERENCE : list string :=
  ["boolean"; "abstract"; "float"; "text"; "annotated_text"; "badge"; "link";
   "percentage_bar"].

(** [ctype] is [string | undefined]; the [typeof ctype === 'string'] test
    holds for every defined input of that type. *)
Definition validateCellType (ctype : option string) : result string :=
  match ctype with
  | None => Ok "abstract"
  | Some ctype =>
      if includes CELL_TYPE_VALIDATION_REFERENCE ctype
      then Ok ctype
      else Throw (Error ("Invalid data type `" ++ ctype ++ "`"))
  end.

(** The inner [match] is [typeof value === 'string' &&
    NA_STRINGS.includes(value.toUpperCase())]. *)
Definition __isNull (value : jsvalue) : bool :=
  if truthy value
     && match value with
        | VStr s => includes NA_STRINGS (toUpperCase s)
        | _ => false
        end
  then true
  else is_null value || is_undefined value.

(** Modelled from the spec: [_hasOwnProperty] of [@common/utils] is not in
    the sources; the accessor substitutes "the cell's declared naString if
    present", so it tells whether the object has the key as a property of
    its own. *)
Definition _hasOwnProperty (key : string) (object : jsvalue) : bool :=
  match object with
  | VObj o => obj_has key o
  | _ => false
  end.

(** Modelled from the spec: [_get] of [@common/utils] is not in the
    sources; a cell that is not null gives "the raw value unchanged", so it
    reads the property. *)
Definition _get (key : string) (object : jsvalue) : jsvalue :=
  prop key object.

Definition __resolveValue (props : jsvalue) : jsvalue :=
  let naString :=
    if _hasOwnProperty "naString" props
    then prop "naString" props
    else VStr DEFAULT_NA_STRING in
  if __isNull (prop "value" props) then naString else _get "value" props.

Definition __resolveBooleanValue (props : jsvalue) : jsvalue :=
  if __isNull (prop "value" props) then
    if truthy (prop "nullAsFalse" props) then
      if negb (is_undefined (prop "falseStr" props))
      then prop "falseStr" props
      else VStr "FALSE"
    else __resolveValue props
  else
    if is_true (prop "value" props)
    then (if negb (is_undefined (prop "trueStr" props))
          then prop "trueStr" props
          else VStr "TRUE")
    else (if negb (is_undefined (prop "falseStr" props))
          then prop "falseStr" props
          else VStr "FALSE").

(** The accessor.  Reading [cellProps.type] of [null] or [undefined] is the
    only step that can throw; every later property read is on the same,
    hence defined, value. *)
Fixpoint getCellValue (cellProps : jsvalue) : result jsvalue :=
  match cellProps with
  | VArr items =>
      values <- sequence (map getCellValue items) ;;
      Ok (VStr (Array_join " // " values))
  | VUndefined | VNull =>
      Throw (TypeError "Cannot read properties of null or undefined (reading 'type')")
  | _ =>
      let cellType := prop "type" cellProps in
      match cellType with
      | VStr "boolean" => Ok (__resolveBooleanValue cellProps)
      | _ => Ok (__resolveValue cellProps)
      end
  end.

(** Modelled from the spec: [_isJSON] of [@common/utils] is not in the
    sources; the value classifier tells whether a raw value is "structured
    (a non-null object, not a primitive)".  Arrays never reach it. *)
Definition _isJSON (value : jsvalue) : bool :=
  match value with
  | VObj _ => true
  | _ => false
  end.

(** Modelled from the spec: [_deepCopy] of [@common/utils] is not in the
    sources; it deep-copies the structured value.  Values are immutable
    trees here, so the copy is the same tree. *)
Definition _deepCopy (value : jsvalue) : jsvalue := value.

Definition STRUCTURED_WARNING : string :=
  "`type` must be specified in the column defintion to correctly interpret structured values; assuming `text` cell: ".

(** A call [console.warn(text + JSON.stringify(payload))], recorded by its
    two parts. *)
Inductive diagnostic : Type :=
| console_warn (text : string) (payload : jsvalue).

(** [resolveCell] returns the resolved cell together with the warnings it
    wrote to the console, oldest first. *)
Fixpoint resolveCell (cell : jsvalue) (cellType : option string)
  : jsvalue * list diagnostic :=
  match cell with
  | VArr items =>
      let resolved := map (fun c => resolveCell c cellType) items in
      (VArr (map fst resolved), List.concat (map snd resolved))
  | _ =>
      let resolvedCellType :=
        match cellType with None => "abstract" | Some t => t end in
      let resolvedCell := VObj [] in
      if _isJSON cell then
        let '(resolvedCellType, warned) :=
          if resolvedCellType =? "abstract"
          then ("text", [console_warn STRUCTURED_WARNING cell])
          else (resolvedCellType, []) in
        let resolvedCell := _deepCopy cell in
        (Object_assign [("type", VStr resolvedCellType)] resolvedCell, warned)
      else
        let resolvedCell := Object_assign [("value", cell)] resolvedCell in
        (Object_assign [("type", VStr resolvedCellType)] resolvedCell, [])
  end.

End WithBuiltins.

(** *** The vocabulary of the specification *)

(** A scalar: a string, a number or a boolean. *)
Definition isScalar (v : jsvalue) : bool :=
  match v with
  | VBool _ | VNum _ | VStr _ => true
  | _ => false
  end.

(** Two strings that differ by letter case only. *)
Definition caseInsensitiveEq (s t : string) : bool :=
  toLowerCase s =? toLowerCase t.

(** A string that is, compared case-insensitively, one of the NA sentinel
    strings [NA], [N/A], [NULL], [.] and the empty string. *)
Definition isNASentinel (s : string) : bool :=
  existsb (caseInsensitiveEq s) NA_STRINGS.

Definition isNASentinelValue (v : jsvalue) : bool :=
  match v with
  | VStr s => isNASentinel s
  | _ => false
  end.

(** The null values of the cell types: [null] and [undefined]. *)
Definition isNullish (v : jsvalue) : bool :=
  is_null v || is_undefined v.

(** An optional display string with its default. *)
Definition withDefault (default : string) (v : jsvalue) : jsvalue :=
  match v with
  | VUndefined => VStr default
  | _ => v
  end.

(** The substitute for a null value: the cell's [naString] when the cell
    has one, [NA] otherwise. *)
Definition nullSubstitute (o : object) : jsvalue :=
  if obj_has "naString" o then obj_get "naString" o else VStr "NA".

(** An instance of [Number.prototype.toString] to run examples with.  It is
    exact on NaN, the infinities, the zeros and the integers below [2^53] in
    magnitude; any other number is printed as its integer part. *)
Definition integer_Number_toString (x : float) : string :=
  match Prim2SF x with
  | S754_nan => "NaN"
  | S754_infinity false => "Infinity"
  | S754_infinity true => "-Infinity"
  | S754_zero _ => "0"
  | S754_finite s m e =>
      let digits := NilZero.string_of_uint (N.to_uint (Z.to_N (Z.shiftl (Z.pos m) e))) in
      if s then "-" ++ digits else digits
  end.

End Cell.

(** ** PaginationControls.tsx *)

Module Pagination.

Local Open Scope Z_scope.

(** [Math.ceil(n / d)] on integers, for a positive [d].  A row count is an
    array length, and on such integers the quotient in binary64 followed by
    [Math.ceil] gives this exact value. *)
Definition Math_ceil_div (n d : Z) : Z := - ((- n) / d).

(** lodash's [range(start, end, step)] for a positive step: it has
    [max(ceil((end - start) / step), 0)] entries, the [i]-th of which is
    [start + i * step]. *)
Definition range (start end_ step : Z) : list Z :=
  let length := Z.max (Math_ceil_div (end_ - start) step) 0 in
  map (fun i => start + Z.of_nat i * step) (seq 0 (Z.to_nat length)).

Definition nearestTenth (nRows : Z) : Z := Math_ceil_div nRows 10 * 10.

Definition __generatePageSizeOptions (nRows : Z) : list Z :=
  let nearestTenth := nearestTenth nRows in
  if nearestTenth >=? 500 then [10; 20; 30; 40; 50; 100; 500]
  else if nearestTenth >=? 100 then [10; 20; 30; 40; 50; 100]
  else if nearestTenth >=? 50 then [10; 20; 30; 40; 50; nRows]
  else if (nearestTenth >=? 10) && (nRows >=? 10) then
    let options := range 10 (nearestTenth + 10) 10 in
    options ++ [nRows]
  else [nRows].

(** The two ends of the "a - b of n" label of the control. *)
Definition minDisplayedRow (pageIndex pageSize : Z) : Z :=
  pageIndex * pageSize + 1.

Definition maxDisplayedRow (pageIndex pageSize nRows : Z) : Z :=
  let maxDisplayedRow := minDisplayedRow pageIndex pageSize + pageSize - 1 in
  if maxDisplayedRow >? nRows then nRows else maxDisplayedRow.

Definition displayedRows (pageIndex pageSize nRows : Z) : Z * Z :=
  (minDisplayedRow pageIndex pageSize, maxDisplayedRow pageIndex pageSize nRows).

(** The multiples of ten from 10 up to [r], in increasing order: the wording
    of the specification, independent of [range]. *)
Definition multiplesOfTenUpTo (r : Z) : list Z :=
  filter (fun m => m mod 10 =? 0) (map Z.of_nat (seq 1 (Z.to_nat r))).

End Pagination.

(** ** Cell.tsx, continued: the renderer and some vocabulary *)

Module CellAux.

Import Cell.
Local Open Scope string_scope.

(** [Array.isArray] *)
Definition is_array (v : jsvalue) : bool :=
  match v with
  | VArr _ => true
  | _ => false
  end.

(** Induction along the recursion of [resolveCell] and [getCellValue]:
    through arrays, down to the values that are not arrays. *)
Fixpoint cells_ind (P : jsvalue -> Prop)
  (Hleaf : forall v, is_array v = false -> P v)
  (Harr : forall items, Forall P items -> P (VArr items))
  (v : jsvalue) {struct v} : P v :=
  match v with
  | VArr items =>
      Harr items
        ((fix all (l : list jsvalue) : Forall P l :=
            match l with
            | [] => Forall_nil P
            | x :: l' => Forall_cons x (cells_ind P Hleaf Harr x) (all l')
            end) items)
  | VUndefined => Hleaf VUndefined eq_refl
  | VNull => Hleaf VNull eq_refl
  | VBool b => Hleaf (VBool b) eq_refl
  | VNum n => Hleaf (VNum n) eq_refl
  | VStr s => Hleaf (VStr s) eq_refl
  | VObj o => Hleaf (VObj o) eq_refl
  end.

Definition keys (o : object) : list string := map fst o.

(** The property list [o] without the key [k]. *)
Definition without_key (k : string) (o : object) : object :=
  filter (fun kv => negb (fst kv =? k)) o.

(** A raw cell as JavaScript can hold it: no plain object reached through
    the arrays lists a key twice. *)
Fixpoint proper (v : jsvalue) : Prop :=
  match v with
  | VObj o => NoDup (keys o)
  | VArr items =>
      (fix all (l : list jsvalue) : Prop :=
         match l with
         | [] => True
         | x :: l' => proper x /\ all l'
         end) items
  | _ => True
  end.

(** The number of plain objects reached through the arrays of a raw cell. *)
Fixpoint countStructured (v : jsvalue) : nat :=
  match v with
  | VObj _ => 1
  | VArr items => list_sum (map countStructured items)
  | _ => 0
  end.

(** The type [resolveCell] assigns to a raw value that is not structured,
    and the one it assigns to a structured value. *)
Definition declaredType (cellType : option string) : string :=
  match cellType with
  | None => "abstract"
  | Some t => t
  end.

Definition structuredType (cellType : option string) : string :=
  if declaredType cellType =? "abstract" then "text" else declaredType cellType.

(** What [renderCell] returns: the [Text] component on the cell, or the
    fallback block that shows the cell's type and [JSON.stringify(cell)],
    recorded by the cell it is given. *)
Inductive element : Type :=
| Text_element (props : jsvalue)
| fallback_element (cellType : jsvalue) (stringified : jsvalue).

(** [renderCell]: the [switch] on [cell.type] sends [abstract] and [text]
    to the [Text] component and every other type to the fallback.  Reading
    [cell.type] of [null] or [undefined] throws. *)
Definition renderCell (cell : jsvalue) : result element :=
  match cell with
  | VUndefined | VNull =>
      Throw (TypeError "Cannot read properties of null or undefined (reading 'type')")
  | _ =>
      match prop "type" cell with
      | VStr t =>
          if (t =? "abstract") || (t =? "text")
          then Ok (Text_element cell)
          else Ok (fallback_element (VStr t) cell)
      | other => Ok (fallback_element other cell)
      end
  end.

End CellAux.

(** ** Properties of the pagination control *)

Module PaginationFacts.

Import Pagination.
Local Open Scope Z_scope.

(** [Math_ceil_div n d] is the ceiling of the quotient: the least integer
    [q] with [n <= q * d]. *)
Lemma Math_ceil_div_spec (n d : Z) :
  0 < d -> n <= Math_ceil_div n d * d < n + d.
Proof.
  intros Hd. unfold Math_ceil_div.
  pose proof (Z.div_mod (- n) d ltac:(lia)) as Hdm.
  pose proof (Z.mod_pos_bound (- n) d Hd) as Hb.
  nia.
Qed.


(** A threshold on the rounded count, read on the row count itself: the
    rounded count reaches [10 * k] exactly when there are more than
    [10 * (k - 1)] rows. *)
Lemma nearestTenth_threshold (nRows k : Z) :
  10 * k <= nearestTenth nRows <-> 10 * (k - 1) < nRows.
Proof.
  pose proof (Math_ceil_div_spec nRows 10 ltac:(lia)) as Hc.
  unfold nearestTenth. lia.
Qed.







(** C8: the displayed rows go from [pageIndex * pageSize + 1] to that value
    plus [pageSize - 1], the upper end clamped to [nRows]. *)
Theorem displayedRows_range (pageIndex pageSize nRows : Z) :
  displayedRows pageIndex pageSize nRows
  = (pageIndex * pageSize + 1,
     Z.min (pageIndex * pageSize + 1 + pageSize - 1) nRows).
Proof.
  unfold displayedRows, maxDisplayedRow, minDisplayedRow.
  f_equal.
  destruct (Z.gtb_spec (pageIndex * pageSize + 1 + pageSize - 1) nRows); lia.
Qed.

(** C10: a row count that is a multiple of ten between 10 and 40 appears
    twice among the options: as the last generated multiple of ten and as
    the appended row count. *)
Theorem generatePageSizeOptions_duplicate (nRows : Z) :
  10 <= nRows <= 40 -> nRows mod 10 = 0 ->
  __generatePageSizeOptions nRows = multiplesOfTenUpTo nRows ++ [nRows] /\
  last (multiplesOfTenUpTo nRows) 0 = nRows /\
  count_occ Z.eq_dec (__generatePageSizeOptions nRows) nRows = 2%nat.
Proof.
  intros Hr Hm.
  assert (nRows = 10 \/ nRows = 20 \/ nRows = 30 \/ nRows = 40)
    as [-> | [-> | [-> | ->]]]
    by (pose proof (Z.div_mod nRows 10 ltac:(lia)); lia).
  all: repeat split; reflexivity.
Qed.

Lemma generatePageSizeOptions_duplicate_witness :
  __generatePageSizeOptions 40 = [10; 20; 30; 40; 40] /\
  count_occ Z.eq_dec (__generatePageSizeOptions 40) 40 = 2%nat.
Proof.
  destruct (generatePageSizeOptions_duplicate 40 ltac:(lia) eq_refl)
    as (H & _ & Hc).
  split; [rewrite H; reflexivity | exact Hc].
Defined.

End PaginationFacts.

(** ** Properties of the cell functions *)

Module CellFacts.

Import Cell.
Local Open Scope string_scope.

(** *** Letter case *)

Lemma lower_upper_char (c : ascii) : lower_char (upper_char c) = lower_char c.
Proof. destruct c as [[] [] [] [] [] [] [] []]; reflexivity. Qed.

Lemma upper_lower_char (c : ascii) : upper_char (lower_char c) = upper_char c.
Proof. destruct c as [[] [] [] [] [] [] [] []]; reflexivity. Qed.

Lemma toLowerCase_toUpperCase (s : string) :
  toLowerCase (toUpperCase s) = toLowerCase s.
Proof.
  induction s as [| c s IH]; cbn [toLowerCase toUpperCase].
  - reflexivity.
  - rewrite lower_upper_char, IH. reflexivity.
Qed.

Lemma toUpperCase_toLowerCase (s : string) :
  toUpperCase (toLowerCase s) = toUpperCase s.
Proof.
  induction s as [| c s IH]; cbn [toLowerCase toUpperCase].
  - reflexivity.
  - rewrite upper_lower_char, IH. reflexivity.
Qed.

(** Against a string already in upper case, comparing the upper-cased input
    is comparing case-insensitively. *)
Lemma upper_eqb_caseInsensitive (s t : string) :
  toUpperCase t = t ->
  (toUpperCase s =? t) = caseInsensitiveEq s t.
Proof.
  intros Ht. unfold caseInsensitiveEq.
  destruct (String.eqb_spec (toUpperCase s) t) as [E | N];
    destruct (String.eqb_spec (toLowerCase s) (toLowerCase t)) as [E' | N'];
    try reflexivity.
  - exfalso. apply N'. rewrite <- E. symmetry. apply toLowerCase_toUpperCase.
  - exfalso. apply N.
    rewrite <- toUpperCase_toLowerCase, E', toUpperCase_toLowerCase. exact Ht.
Qed.

Lemma includes_NA_STRINGS (s : string) :
  includes NA_STRINGS (toUpperCase s) = isNASentinel s.
Proof.
  unfold includes, isNASentinel, NA_STRINGS. cbn [existsb].
  rewrite !upper_eqb_caseInsensitive by reflexivity. reflexivity.
Qed.

Lemma isNASentinel_empty (s : string) : s = "" -> isNASentinel s = true.
Proof. intros ->. reflexivity. Qed.

(** *** Null detection *)

(** What [__isNull] accepts: [null], [undefined], and the sentinel strings
    other than the empty one. *)
Lemma isNull_spec (v : jsvalue) :
  __isNull v =
  match v with
  | VUndefined | VNull => true
  | VStr s => negb (s =? "") && isNASentinel s
  | _ => false
  end.
Proof.
  unfold __isNull.
  destruct v as [| | b | n | s | o | l]; cbn [truthy is_null is_undefined orb andb];
    try reflexivity.
  - rewrite andb_false_r. reflexivity.
  - rewrite andb_false_r. reflexivity.
  - rewrite includes_NA_STRINGS.
    destruct (negb (s =? "") && isNASentinel s); reflexivity.
Qed.

Lemma isNull_scalar (v : jsvalue) :
  isScalar v = true -> isNASentinelValue v = false -> __isNull v = false.
Proof.
  intros Hs Hna. rewrite isNull_spec.
  destruct v; try discriminate; try reflexivity.
  cbn [isNASentinelValue] in Hna. rewrite Hna. apply andb_false_r.
Qed.

(** *** Objects *)

Lemma obj_get_set_other (k k' : string) (v : jsvalue) (o : object) :
  (k =? k') = false -> obj_get k (obj_set k' v o) = obj_get k o.
Proof.
  intros Hk. induction o as [| [k0 v0] o IH]; cbn [obj_set obj_get].
  - rewrite Hk. reflexivity.
  - destruct (String.eqb_spec k' k0) as [-> | Hne]; cbn [obj_get].
    + rewrite Hk. reflexivity.
    + rewrite IH. reflexivity.
Qed.

(** A key the source does not have keeps the value the target gave it. *)
Lemma Object_assign_keeps (k : string) (target source : object) :
  obj_has k source = false ->
  prop k (Object_assign target (VObj source)) = obj_get k target.
Proof.
  unfold Object_assign. cbn [own_props prop].
  revert target.
  induction source as [| [k0 v0] source IH]; intros target Hk; cbn [fold_left fst snd].
  - reflexivity.
  - cbn [obj_has] in Hk. apply orb_false_iff in Hk as [Hk0 Hk].
    rewrite IH by exact Hk. apply obj_get_set_other. exact Hk0.
Qed.

Lemma obj_get_set_same (k : string) (v : jsvalue) (o : object) :
  obj_get k (obj_set k v o) = v.
Proof.
  induction o as [| [k0 v0] o IH]; cbn [obj_set obj_get].
  - rewrite String.eqb_refl. reflexivity.
  - destruct (String.eqb_spec k k0) as [-> | Hne]; cbn [obj_get].
    + rewrite String.eqb_refl. reflexivity.
    + apply String.eqb_neq in Hne. rewrite Hne. exact IH.
Qed.

(** *** The resolver *)

(** A value that is neither an array nor a plain object is wrapped with
    the declared type, without a warning. *)
Lemma resolveCell_scalar (v : jsvalue) (t : string) :
  isScalar v = true ->
  resolveCell v (Some t) = (VObj [("type", VStr t); ("value", v)], []).
Proof. destruct v; intros H; try discriminate H; reflexivity. Qed.

(** A plain object without a [type] of its own, resolved with no declared
    type or with [abstract], gets the type [text], and one warning about it
    is written. *)
Lemma resolveCell_structured_untyped (o : object) (cellType : option string) :
  obj_has "type" o = false ->
  cellType = None \/ cellType = Some "abstract" ->
  prop "type" (fst (resolveCell (VObj o) cellType)) = VStr "text" /\
  snd (resolveCell (VObj o) cellType) = [console_warn STRUCTURED_WARNING (VObj o)].
Proof.
  intros Hfresh [-> | ->]; cbn [resolveCell _isJSON _deepCopy String.eqb Ascii.eqb Bool.eqb fst snd];
    (split; [| reflexivity]);
    unfold _deepCopy; rewrite Object_assign_keeps by exact Hfresh; reflexivity.
Qed.

(** C3: [validateCellType] gives [abstract] for [undefined], gives back a
    member of the cell-type vocabulary unchanged, and throws for any other
    string an error whose message holds that string. *)
Theorem validateCellType_spec :
  validateCellType None = Ok "abstract" /\
  (forall s, In s CELL_TYPE_VALIDATION_REFERENCE ->
     validateCellType (Some s) = Ok s) /\
  (forall s, ~ In s CELL_TYPE_VALIDATION_REFERENCE ->
     validateCellType (Some s)
     = Throw (Error ("Invalid data type `" ++ s ++ "`"))) /\
  validateCellType (Some "badge") = Ok "badge" /\
  validateCellType (Some "bogus") = Throw (Error "Invalid data type `bogus`").
Proof.
  assert (Hin : forall s,
             includes CELL_TYPE_VALIDATION_REFERENCE s = true
             <-> In s CELL_TYPE_VALIDATION_REFERENCE).
  { intros s. unfold includes. rewrite existsb_exists. split.
    - intros (x & Hx & E). apply String.eqb_eq in E. subst x. exact Hx.
    - intros Hs. exists s. split; [exact Hs | apply String.eqb_refl]. }
  repeat split; try reflexivity.
  - intros s Hs. unfold validateCellType.
    apply Hin in Hs. rewrite Hs. reflexivity.
  - intros s Hs. unfold validateCellType.
    destruct (includes CELL_TYPE_VALIDATION_REFERENCE s) eqn:E.
    + exfalso. apply Hs. apply Hin. exact E.
    + reflexivity.
Qed.

(** C4, at a structured value that has a [type] of its own: resolved with no
    declared type, the cell keeps that [type], here [abstract], although
    the warning that [text] is assumed is written. *)
Theorem resolveCell_own_type_kept :
  resolveCell (VObj [("type", VStr "abstract"); ("value", VStr "x")]) None
  = (VObj [("type", VStr "abstract"); ("value", VStr "x")],
     [console_warn STRUCTURED_WARNING
        (VObj [("type", VStr "abstract"); ("value", VStr "x")])]).
Proof. reflexivity. Qed.

Section Accessor.

Variable Number_toString : float -> string.

Local Notation "'getCellValue'" := (Cell.getCellValue Number_toString).
Local Notation "'join_element'" := (Cell.join_element Number_toString).

(** The accessor on a single cell object: the [type] picks the rule. *)
Lemma getCellValue_object (o : object) :
  getCellValue (VObj o)
  = Ok (match obj_get "type" o with
        | VStr "boolean" => __resolveBooleanValue (VObj o)
        | _ => __resolveValue (VObj o)
        end).
Proof.
  cbn [Cell.getCellValue prop].
  destruct (obj_get "type" o) as [| | b | n | s | o' | l]; try reflexivity.
  repeat (match goal with
          | |- context [match ?x with EmptyString => _ | String _ _ => _ end] =>
              destruct x as [| [[] [] [] [] [] [] [] []] ?]; try reflexivity
          end).
Qed.

Lemma resolveValue_object (o : object) :
  __resolveValue (VObj o)
  = if __isNull (obj_get "value" o) then nullSubstitute o else obj_get "value" o.
Proof. reflexivity. Qed.

Lemma withDefault_test (d : string) (v : jsvalue) :
  (if negb (is_undefined v) then v else VStr d) = withDefault d v.
Proof. destruct v; reflexivity. Qed.

(** C1: a scalar that is not an NA sentinel, resolved as [text] and then
    accessed, comes back unchanged. *)
Theorem text_cell_roundtrip (v : jsvalue) :
  isScalar v = true -> isNASentinelValue v = false ->
  getCellValue (fst (resolveCell v (Some "text"))) = Ok v.
Proof.
  intros Hs Hna.
  rewrite resolveCell_scalar by exact Hs. cbn [fst].
  rewrite getCellValue_object. cbn [obj_get String.eqb Ascii.eqb Bool.eqb].
  rewrite resolveValue_object. cbn [obj_get String.eqb Ascii.eqb Bool.eqb].
  rewrite isNull_scalar by assumption. reflexivity.
Qed.

(** C2, at the empty string: it is one of the NA sentinel strings, yet
    [__isNull] rejects it and the accessor returns it as it is, not the
    [NA] substitute. *)
Theorem empty_string_not_substituted :
  isNASentinel "" = true /\
  __isNull (VStr "") = false /\
  getCellValue (VObj [("type", VStr "text"); ("value", VStr "")]) = Ok (VStr "") /\
  getCellValue (fst (resolveCell (VStr "") (Some "text"))) = Ok (VStr "").
Proof. repeat split; reflexivity. Qed.

(** What holds of C2: a cell that is not boolean gives the null substitute
    for [undefined], [null] and every sentinel string but the empty one, in
    any letter case, and its value otherwise. *)
Lemma nonboolean_cell_value (o : object) :
  obj_get "type" o <> VStr "boolean" ->
  getCellValue (VObj o)
  = Ok (match obj_get "value" o with
        | VUndefined | VNull => nullSubstitute o
        | VStr s =>
            if negb (s =? "") && isNASentinel s
            then nullSubstitute o else VStr s
        | v => v
        end).
Proof.
  intros Ht. rewrite getCellValue_object.
  assert (E : match obj_get "type" o with
              | VStr "boolean" => __resolveBooleanValue (VObj o)
              | _ => __resolveValue (VObj o)
              end = __resolveValue (VObj o)).
  { destruct (obj_get "type" o) as [| | b | n | s | o' | l]; try reflexivity.
    destruct (String.eqb_spec s "boolean") as [-> | Hne].
    - exfalso. apply Ht. reflexivity.
    - repeat (match goal with
              | |- context [match ?x with EmptyString => _ | String _ _ => _ end] =>
                  destruct x as [| [[] [] [] [] [] [] [] []] ?]; try reflexivity
              end).
      exfalso. apply Hne. reflexivity. }
  rewrite E, resolveValue_object, isNull_spec.
  destruct (obj_get "value" o); reflexivity.
Qed.

(** What holds of C5: on a boolean cell the accessor follows the null test
    [__isNull] of the value.  When the test accepts the value, the result is
    [falseStr] (or [FALSE]) if [nullAsFalse] is set and the null substitute
    if it is not; when the test rejects it, the result is [trueStr] (or
    [TRUE]) for the boolean [true] and [falseStr] (or [FALSE]) for anything
    else. *)
Lemma boolean_cell_value_by_null_test (o : object) :
  obj_get "type" o = VStr "boolean" ->
  getCellValue (VObj o)
  = Ok (if __isNull (obj_get "value" o)
        then (if truthy (obj_get "nullAsFalse" o)
              then withDefault "FALSE" (obj_get "falseStr" o)
              else nullSubstitute o)
        else (if is_true (obj_get "value" o)
              then withDefault "TRUE" (obj_get "trueStr" o)
              else withDefault "FALSE" (obj_get "falseStr" o))).
Proof.
  intros Ht. rewrite getCellValue_object, Ht.
  unfold __resolveBooleanValue. cbn [prop].
  rewrite resolveValue_object, !withDefault_test.
  destruct (__isNull (obj_get "value" o)); reflexivity.
Qed.

(** The null test on the values a boolean cell is accessed with: it accepts
    [undefined], [null] and the sentinel strings other than the empty one,
    in any letter case, and nothing else. *)
Lemma boolean_cell_null_test (o : object) :
  __isNull (obj_get "value" o) = true
  <-> isNullish (obj_get "value" o) = true
      \/ exists s, obj_get "value" o = VStr s /\ s <> ""
                   /\ isNASentinel s = true.
Proof.
  rewrite isNull_spec.
  destruct (obj_get "value" o) as [| | b | n | s | o' | l]; cbn [isNullish is_null is_undefined orb];
    try (split; [intros _; left; reflexivity | reflexivity]);
    try (split; [discriminate | intros [H | (s' & H & _)]; discriminate H]).
  split.
  - intros H. apply andb_true_iff in H as [Hne Hs]. right. exists s.
    repeat split; [| exact Hs].
    intros ->. discriminate Hne.
  - intros [H | (s' & E & Hne & Hs)]; [discriminate H |].
    injection E as <-. rewrite Hs.
    destruct (String.eqb_spec s ""); [contradiction | reflexivity].
Qed.

(** C5, at the empty string: it is one of the NA sentinel strings, hence a
    null value of the specification, yet a boolean cell that holds it, with
    [nullAsFalse] unset, is accessed as [FALSE] and not as the null
    substitute [NA]; the same holds after [resolveCell]. *)
Theorem boolean_cell_empty_string :
  isNASentinel "" = true /\
  nullSubstitute [("type", VStr "boolean"); ("value", VStr "");
                  ("nullAsFalse", VBool false)] = VStr "NA" /\
  getCellValue (VObj [("type", VStr "boolean"); ("value", VStr "");
                      ("nullAsFalse", VBool false)]) = Ok (VStr "FALSE") /\
  getCellValue (fst (resolveCell (VStr "") (Some "boolean")))
  = Ok (VStr "FALSE").
Proof. repeat split; reflexivity. Qed.

(** The callbacks of the [map] all return: so does the [map]. *)
Lemma sequence_map_getCellValue (cells values : list jsvalue) :
  Forall2 (fun c v => getCellValue c = Ok v) cells values ->
  sequence (map getCellValue cells) = Ok values.
Proof.
  induction 1 as [| c v cells values Hc _ IH]; cbn [map sequence].
  - reflexivity.
  - rewrite Hc, IH. reflexivity.
Qed.

(** C6: on an array of cells the accessor returns the values of the
    elements, in order, joined with [ // ]; for two cells this is the first
    value, the delimiter, the second value. *)
Theorem getCellValue_array (cells values : list jsvalue) :
  Forall2 (fun c v => getCellValue c = Ok v) cells values ->
  getCellValue (VArr cells)
  = Ok (VStr (String.concat " // " (map join_element values))) /\
  (forall a b, values = [a; b] ->
     getCellValue (VArr cells)
     = Ok (VStr (join_element a ++ " // " ++ join_element b))).
Proof.
  intros H.
  assert (E : getCellValue (VArr cells)
              = Ok (VStr (String.concat " // " (map join_element values)))).
  { cbn [Cell.getCellValue].
    rewrite (sequence_map_getCellValue cells values H). reflexivity. }
  split; [exact E |].
  intros a b ->. rewrite E. reflexivity.
Qed.

(** C9: on the empty array the accessor returns the empty string. *)
Theorem getCellValue_empty_array :
  getCellValue (VArr []) = Ok (VStr "").
Proof. reflexivity. Qed.

End Accessor.

(** *** Instances *)

Lemma text_cell_roundtrip_witness :
  Cell.getCellValue integer_Number_toString
    (fst (resolveCell (VStr "rs429358") (Some "text"))) = Ok (VStr "rs429358") /\
  Cell.getCellValue integer_Number_toString
    (fst (resolveCell (VNum 0%float) (Some "text"))) = Ok (VNum 0%float).
Proof.
  split.
  - exact (text_cell_roundtrip integer_Number_toString (VStr "rs429358")
             eq_refl eq_refl).
  - exact (text_cell_roundtrip integer_Number_toString (VNum 0%float)
             eq_refl eq_refl).
Defined.

(** The two boolean cells the specification gives as examples. *)
Lemma boolean_cell_examples :
  Cell.getCellValue integer_Number_toString
    (VObj [("type", VStr "boolean"); ("value", VNull);
           ("nullAsFalse", VBool true); ("falseStr", VStr "No")])
  = Ok (VStr "No") /\
  Cell.getCellValue integer_Number_toString
    (VObj [("type", VStr "boolean"); ("value", VBool true);
           ("nullAsFalse", VBool false); ("trueStr", VStr "Yes")])
  = Ok (VStr "Yes").
Proof.
  split.
  - exact (boolean_cell_value_by_null_test integer_Number_toString
             [("type", VStr "boolean"); ("value", VNull);
              ("nullAsFalse", VBool true); ("falseStr", VStr "No")] eq_refl).
  - exact (boolean_cell_value_by_null_test integer_Number_toString
             [("type", VStr "boolean"); ("value", VBool true);
              ("nullAsFalse", VBool false); ("trueStr", VStr "Yes")] eq_refl).
Qed.

Lemma getCellValue_array_witness :
  Cell.getCellValue integer_Number_toString
    (VArr [VObj [("type", VStr "text"); ("value", VStr "APOE")];
           VObj [("type", VStr "float"); ("value", VNum 19%float)]])
  = Ok (VStr "APOE // 19").
Proof.
  assert (H : Forall2
                (fun c v => Cell.getCellValue integer_Number_toString c = Ok v)
                [VObj [("type", VStr "text"); ("value", VStr "APOE")];
                 VObj [("type", VStr "float"); ("value", VNum 19%float)]]
                [VStr "APOE"; VNum 19%float])
    by (repeat constructor).
  exact (proj2 (getCellValue_array integer_Number_toString _ _ H)
           (VStr "APOE") (VNum 19%float) eq_refl).
Defined.

End CellFacts.

(** ** Further properties of the pagination control *)

Module PaginationProps.

Import Pagination.
Local Open Scope Z_scope.

Lemma nearestTenth_bounds (nRows : Z) :
  exists q, nearestTenth nRows = q * 10 /\ nRows <= q * 10 < nRows + 10.
Proof.
  exists (Math_ceil_div nRows 10). split; [reflexivity |].
  unfold Math_ceil_div.
  pose proof (Z.div_mod (- nRows) 10 ltac:(lia)) as Hdm.
  pose proof (Z.mod_pos_bound (- nRows) 10 ltac:(lia)) as Hb.
  lia.
Qed.

Lemma nearestTenth_value (nRows k : Z) :
  10 * (k - 1) < nRows <= 10 * k -> nearestTenth nRows = 10 * k.
Proof.
  intros H. destruct (nearestTenth_bounds nRows) as (q & -> & Hq). lia.
Qed.

Lemma geb_spec_true (a b : Z) : b <= a -> (a >=? b) = true.
Proof. intros H. rewrite Z.geb_leb. apply Z.leb_le. exact H. Qed.

Lemma geb_spec_false (a b : Z) : a < b -> (a >=? b) = false.
Proof. intros H. rewrite Z.geb_leb. apply Z.leb_gt. exact H. Qed.

(** The options read on the row count itself, shared by the proofs below. *)
Lemma options_closed_form (nRows : Z) :
  (490 < nRows ->
     __generatePageSizeOptions nRows = [10; 20; 30; 40; 50; 100; 500]) /\
  (90 < nRows <= 490 ->
     __generatePageSizeOptions nRows = [10; 20; 30; 40; 50; 100]) /\
  (40 < nRows <= 90 ->
     __generatePageSizeOptions nRows = [10; 20; 30; 40; 50; nRows]) /\
  (30 < nRows <= 40 ->
     __generatePageSizeOptions nRows = [10; 20; 30; 40; nRows]) /\
  (20 < nRows <= 30 ->
     __generatePageSizeOptions nRows = [10; 20; 30; nRows]) /\
  (10 < nRows <= 20 ->
     __generatePageSizeOptions nRows = [10; 20; nRows]) /\
  (nRows = 10 -> __generatePageSizeOptions nRows = [10; 10]) /\
  (nRows < 10 -> __generatePageSizeOptions nRows = [nRows]).
Proof.
  destruct (nearestTenth_bounds nRows) as (q & Hq & Hb).
  unfold __generatePageSizeOptions.
  repeat split; intros H.
  - rewrite geb_spec_true by lia. reflexivity.
  - rewrite geb_spec_false by lia. rewrite geb_spec_true by lia. reflexivity.
  - rewrite !geb_spec_false by lia. rewrite geb_spec_true by lia. reflexivity.
  - rewrite (nearestTenth_value nRows 4) by lia.
    rewrite (geb_spec_true nRows) by lia. reflexivity.
  - rewrite (nearestTenth_value nRows 3) by lia.
    rewrite (geb_spec_true nRows) by lia. reflexivity.
  - rewrite (nearestTenth_value nRows 2) by lia.
    rewrite (geb_spec_true nRows) by lia. reflexivity.
  - subst nRows. reflexivity.
  - rewrite !geb_spec_false by lia.
    rewrite (geb_spec_false nRows) by lia.
    rewrite andb_false_r. reflexivity.
Qed.

(** The options as a function of the row count alone: the rounded
    thresholds 500, 100 and 50 are passed above 490, 90 and 40 rows, and
    below that the tens stop at the first one that is not below the count. *)
Theorem generatePageSizeOptions_by_row_count (nRows : Z) :
  (490 < nRows ->
     __generatePageSizeOptions nRows = [10; 20; 30; 40; 50; 100; 500]) /\
  (90 < nRows <= 490 ->
     __generatePageSizeOptions nRows = [10; 20; 30; 40; 50; 100]) /\
  (40 < nRows <= 90 ->
     __generatePageSizeOptions nRows = [10; 20; 30; 40; 50; nRows]) /\
  (30 < nRows <= 40 ->
     __generatePageSizeOptions nRows = [10; 20; 30; 40; nRows]) /\
  (20 < nRows <= 30 ->
     __generatePageSizeOptions nRows = [10; 20; 30; nRows]) /\
  (10 < nRows <= 20 ->
     __generatePageSizeOptions nRows = [10; 20; nRows]) /\
  (nRows = 10 -> __generatePageSizeOptions nRows = [10; 10]) /\
  (nRows < 10 -> __generatePageSizeOptions nRows = [nRows]).
Proof. exact (options_closed_form nRows). Qed.

(** One of the eight shapes applies to every row count. *)
Ltac by_row_count nRows :=
  let H := fresh "H" in
  destruct (options_closed_form nRows)
    as (H1 & H2 & H3 & H4 & H5 & H6 & H7 & H8);
  assert (H : 490 < nRows \/ 90 < nRows <= 490 \/ 40 < nRows <= 90 \/
              30 < nRows <= 40 \/ 20 < nRows <= 30 \/ 10 < nRows <= 20 \/
              nRows = 10 \/ nRows < 10) by lia;
  destruct H as [H | [H | [H | [H | [H | [H | [H | H]]]]]]];
  [ rewrite (H1 H) | rewrite (H2 H) | rewrite (H3 H) | rewrite (H4 H)
  | rewrite (H5 H) | rewrite (H6 H) | rewrite (H7 H) | rewrite (H8 H) ];
  clear H1 H2 H3 H4 H5 H6 H7 H8.

(** [nearestTenth] is the least multiple of ten that is not below the row
    count. *)
Theorem nearestTenth_least (nRows : Z) :
  nRows <= nearestTenth nRows /\
  nearestTenth nRows mod 10 = 0 /\
  (forall m, m mod 10 = 0 -> nRows <= m -> nearestTenth nRows <= m).
Proof.
  destruct (nearestTenth_bounds nRows) as (q & -> & Hq).
  repeat split.
  - lia.
  - apply Z.mod_mul. lia.
  - intros m Hm Hle.
    pose proof (Z.div_mod m 10 ltac:(lia)) as Hdm. lia.
Qed.

(** The list of options is never empty and has at most seven entries; for
    a table with at least one row every option is a positive page size. *)
Theorem generatePageSizeOptions_shape (nRows : Z) :
  __generatePageSizeOptions nRows <> [] /\
  (List.length (__generatePageSizeOptions nRows) <= 7)%nat /\
  (1 <= nRows -> Forall (fun size => 1 <= size) (__generatePageSizeOptions nRows)).
Proof.
  by_row_count nRows; (split; [discriminate |]); (split; [cbn; lia |]);
    intros Hpos; repeat constructor; lia.
Qed.

(** The options offer the exact row count whenever there are at most 90
    rows. *)
Theorem generatePageSizeOptions_offers_count (nRows : Z) :
  nRows <= 90 -> In nRows (__generatePageSizeOptions nRows).
Proof.
  intros Hn. by_row_count nRows; try lia; cbn [In]; try subst nRows;
    solve [auto 10].
Qed.

(** Some option shows all the rows on one page exactly when there are at
    most 100 rows, or between 491 and 500. *)
Theorem generatePageSizeOptions_covers (nRows : Z) :
  (exists size, In size (__generatePageSizeOptions nRows) /\ nRows <= size)
  <-> (nRows <= 100 \/ 490 < nRows <= 500).
Proof.
  by_row_count nRows; cbn [In]; (split;
    [ intros (size & Hin & Hle); lia
    | intros Hc;
      first [ exists nRows; split; [solve [auto 10] | lia]
            | exists 100; split; [solve [auto 10] | lia]
            | exists 500; split; [solve [auto 10] | lia]
            | exfalso; lia ] ]).
Qed.

(** The options hold no value twice exactly when the row count is none of
    10, 20, 30, 40 and 50; for each of these five counts the row count
    itself occurs exactly twice among the options. *)
Theorem generatePageSizeOptions_duplicates (nRows : Z) :
  (NoDup (__generatePageSizeOptions nRows)
   <-> ~ (nRows = 10 \/ nRows = 20 \/ nRows = 30 \/ nRows = 40 \/ nRows = 50)) /\
  (nRows = 10 \/ nRows = 20 \/ nRows = 30 \/ nRows = 40 \/ nRows = 50 ->
   count_occ Z.eq_dec (__generatePageSizeOptions nRows) nRows = 2%nat).
Proof.
  split.
  - by_row_count nRows; (split;
      [ intros Hnd Hd;
        rewrite (NoDup_count_occ Z.eq_dec) in Hnd;
        specialize (Hnd nRows);
        destruct Hd as [-> | [-> | [-> | [-> | ->]]]];
        first [ lia | vm_compute in Hnd; lia ]
      | intros Hd; repeat constructor; cbn [In]; lia ]).
  - intros [-> | [-> | [-> | [-> | ->]]]]; reflexivity.
Qed.

(** On a page that starts within the rows, the displayed range is a proper
    range inside [1 .. nRows] and holds [pageSize] rows, or the rows that
    are left when fewer remain. *)
Theorem displayedRows_valid (pageIndex pageSize nRows : Z) :
  0 <= pageIndex -> 1 <= pageSize -> pageIndex * pageSize < nRows ->
  1 <= minDisplayedRow pageIndex pageSize
    <= maxDisplayedRow pageIndex pageSize nRows /\
  maxDisplayedRow pageIndex pageSize nRows <= nRows /\
  maxDisplayedRow pageIndex pageSize nRows - minDisplayedRow pageIndex pageSize + 1
  = Z.min pageSize (nRows - pageIndex * pageSize).
Proof.
  intros Hi Hs Hp.
  unfold maxDisplayedRow, minDisplayedRow.
  assert (0 <= pageIndex * pageSize) by nia.
  destruct (Z.gtb_spec (pageIndex * pageSize + 1 + pageSize - 1) nRows); lia.
Qed.

Lemma displayedRows_valid_witness :
  1 <= minDisplayedRow 3 10 <= maxDisplayedRow 3 10 37 /\
  maxDisplayedRow 3 10 37 <= 37 /\
  maxDisplayedRow 3 10 37 - minDisplayedRow 3 10 + 1 = Z.min 10 (37 - 3 * 10).
Proof.
  apply (displayedRows_valid 3 10 37); lia.
Defined.

(** The displayed upper row is below the lower row exactly when the page
    starts past the last row; an empty table on its first page is such a
    case, with the rows 1 to 0 displayed. *)
Theorem displayedRows_inverted (pageIndex pageSize nRows : Z) :
  1 <= pageSize ->
  (maxDisplayedRow pageIndex pageSize nRows < minDisplayedRow pageIndex pageSize
   <-> nRows <= pageIndex * pageSize) /\
  displayedRows 0 pageSize 0 = (1, 0).
Proof.
  intros Hs. unfold displayedRows, maxDisplayedRow, minDisplayedRow. split.
  - destruct (Z.gtb_spec (pageIndex * pageSize + 1 + pageSize - 1) nRows); lia.
  - f_equal. destruct (Z.gtb_spec (0 * pageSize + 1 + pageSize - 1) 0); lia.
Qed.

Lemma displayedRows_inverted_witness :
  (maxDisplayedRow 2 10 15 < minDisplayedRow 2 10 <-> 15 <= 2 * 10) /\
  displayedRows 0 10 0 = (1, 0).
Proof.
  apply (displayedRows_inverted 2 10 15). lia.
Defined.

(** Consecutive pages tile the rows: a page that is full ends one row
    before the next page starts. *)
Theorem displayedRows_consecutive (pageIndex pageSize nRows : Z) :
  (pageIndex + 1) * pageSize <= nRows ->
  minDisplayedRow (pageIndex + 1) pageSize
  = maxDisplayedRow pageIndex pageSize nRows + 1.
Proof.
  intros Hfull. unfold maxDisplayedRow, minDisplayedRow.
  destruct (Z.gtb_spec (pageIndex * pageSize + 1 + pageSize - 1) nRows); lia.
Qed.

Lemma displayedRows_consecutive_witness :
  minDisplayedRow (2 + 1) 10 = maxDisplayedRow 2 10 37 + 1.
Proof.
  apply (displayedRows_consecutive 2 10 37). lia.
Defined.

Lemma generatePageSizeOptions_offers_count_witness :
  In 37 (__generatePageSizeOptions 37).
Proof.
  apply (generatePageSizeOptions_offers_count 37). lia.
Defined.

End PaginationProps.

(** ** Further properties of the cell functions *)

Module CellProps.

Import Cell CellAux.
Local Open Scope string_scope.
Local Open Scope list_scope.

(** *** Property lists *)

Lemma obj_has_keys (k : string) (o : object) :
  obj_has k o = true <-> In k (keys o).
Proof.
  induction o as [| [k0 v0] o IH]; cbn [obj_has keys map fst In].
  - split; [discriminate | contradiction].
  - rewrite orb_true_iff, IH. unfold keys.
    destruct (String.eqb_spec k k0) as [-> | Hne]; split; auto.
    + intros [H | H]; [discriminate | auto].
    + intros [H | H]; [congruence | auto].
Qed.

Lemma obj_has_false (k : string) (o : object) :
  obj_has k o = false <-> ~ In k (keys o).
Proof.
  rewrite <- obj_has_keys. destruct (obj_has k o); split; congruence.
Qed.

Lemma obj_set_fresh (k : string) (v : jsvalue) (o : object) :
  ~ In k (keys o) -> obj_set k v o = o ++ [(k, v)].
Proof.
  induction o as [| [k0 v0] o IH]; cbn [obj_set keys map fst In app]; intros Hk.
  - reflexivity.
  - destruct (String.eqb_spec k k0) as [-> | Hne].
    + exfalso. apply Hk. left. reflexivity.
    + f_equal. apply IH. intros Hin. apply Hk. right. exact Hin.
Qed.

Lemma without_key_fresh (k : string) (o : object) :
  ~ In k (keys o) -> without_key k o = o.
Proof.
  induction o as [| [k0 v0] o IH]; cbn [without_key filter keys map fst In];
    intros Hk.
  - reflexivity.
  - destruct (String.eqb_spec k0 k) as [-> | Hne]; cbn [negb].
    + exfalso. apply Hk. left. reflexivity.
    + f_equal. apply IH. intros Hin. apply Hk. right. exact Hin.
Qed.

Lemma keys_without_key (k k' : string) (o : object) :
  In k' (keys (without_key k o)) <-> In k' (keys o) /\ k' <> k.
Proof.
  unfold keys, without_key. rewrite !in_map_iff. split.
  - intros ([k0 v0] & <- & Hin). apply filter_In in Hin as [Hin Hne].
    cbn [fst] in *. split.
    + exists (k0, v0). split; [reflexivity | exact Hin].
    + destruct (String.eqb_spec k0 k); [discriminate | assumption].
  - intros (([k0 v0] & <- & Hin) & Hne). exists (k0, v0).
    split; [reflexivity |]. apply filter_In. split; [exact Hin |].
    cbn [fst] in *. destruct (String.eqb_spec k0 k); [contradiction | reflexivity].
Qed.

Lemma NoDup_without_key (k : string) (o : object) :
  NoDup (keys o) -> NoDup (keys (without_key k o)).
Proof.
  induction o as [| [k0 v0] o IH]; cbn [without_key filter keys map fst];
    intros Hnd.
  - constructor.
  - inversion Hnd as [| ? ? Hnotin Hnd']; subst.
    destruct (negb (k0 =? k)); cbn [map fst].
    + constructor.
      * intros Hin. apply keys_without_key in Hin as [Hin _]. contradiction.
      * apply IH. exact Hnd'.
    + apply IH. exact Hnd'.
Qed.

Lemma obj_get_without_key (k k' : string) (o : object) :
  k' <> k -> obj_get k' (without_key k o) = obj_get k' o.
Proof.
  intros Hne. unfold without_key.
  induction o as [| [k0 v0] o IH]; cbn [filter obj_get fst].
  - reflexivity.
  - destruct (String.eqb_spec k0 k) as [-> | Hne0]; cbn [negb obj_get].
    + apply String.eqb_neq in Hne. rewrite Hne. exact IH.
    + rewrite IH. reflexivity.
Qed.

(** Writing the properties of [s] onto a target that starts with the key
    [k]: [k] stays first, with the value [s] gives it if any; the other
    properties of [s] follow the target's, in their order. *)
Lemma assign_onto_head (s : object) :
  forall (k : string) (T : jsvalue) (acc : object),
  NoDup (keys s) ->
  (forall k', In k' (keys s) -> ~ In k' (keys acc)) ->
  ~ In k (keys acc) ->
  fold_left (fun t kv => obj_set (fst kv) (snd kv) t) s ((k, T) :: acc)
  = (k, if obj_has k s then obj_get k s else T) :: acc ++ without_key k s.
Proof.
  induction s as [| [k0 v0] s IH]; intros k T acc Hnd Hdis Hk;
    cbn [fold_left fst snd].
  - cbn [obj_has without_key filter]. rewrite app_nil_r. reflexivity.
  - inversion Hnd as [| ? ? Hnotin Hnd']; subst.
    cbn [obj_set obj_has obj_get without_key filter fst].
    destruct (String.eqb_spec k0 k) as [-> | Hne].
    + rewrite String.eqb_refl. cbn [orb negb].
      rewrite IH; try assumption.
      * apply obj_has_false in Hnotin. unfold keys in Hnotin.
        fold (keys s) in Hnotin. rewrite (proj2 (obj_has_false k s)).
        -- reflexivity.
        -- apply obj_has_false. exact Hnotin.
      * intros k' Hin. apply Hdis. right. exact Hin.
    + assert (Hkk0 : (k =? k0) = false) by (apply String.eqb_neq; congruence).
      rewrite Hkk0. cbn [orb negb].
      rewrite obj_set_fresh by (apply Hdis; left; reflexivity).
      rewrite IH; try assumption.
      * rewrite <- app_assoc. reflexivity.
      * intros k' Hin Hin'. unfold keys in Hin'. rewrite map_app in Hin'.
        apply in_app_or in Hin' as [Hin' | [Hin' | []]].
        -- apply (Hdis k'); [right; exact Hin | exact Hin'].
        -- cbn [fst] in Hin'. subst k'. contradiction.
      * intros Hin. unfold keys in Hin. rewrite map_app in Hin.
        apply in_app_or in Hin as [Hin | [Hin | []]].
        -- contradiction.
        -- cbn [fst] in Hin. congruence.
Qed.

Lemma Object_assign_type (T : jsvalue) (o : object) :
  NoDup (keys o) ->
  Object_assign [("type", T)] (VObj o)
  = VObj (("type", if obj_has "type" o then obj_get "type" o else T)
            :: without_key "type" o).
Proof.
  intros Hnd. unfold Object_assign. cbn [own_props].
  rewrite assign_onto_head; auto.
Qed.

(** *** The resolver *)

Lemma resolveCell_array (items : list jsvalue) (cellType : option string) :
  resolveCell (VArr items) cellType
  = (VArr (map (fun c => fst (resolveCell c cellType)) items),
     List.concat (map (fun c => snd (resolveCell c cellType)) items)).
Proof. cbn [resolveCell]. rewrite !map_map. reflexivity. Qed.

(** A raw value that is neither an array nor a plain object. *)
Lemma resolveCell_raw (v : jsvalue) (cellType : option string) :
  is_array v = false -> _isJSON v = false ->
  resolveCell v cellType
  = (VObj [("type", VStr (declaredType cellType)); ("value", v)], []).
Proof.
  destruct v; intros Ha Hj; try discriminate Ha; try discriminate Hj;
    reflexivity.
Qed.

Lemma resolveCell_structured (o : object) (cellType : option string) :
  NoDup (keys o) ->
  resolveCell (VObj o) cellType
  = (VObj (("type", if obj_has "type" o then obj_get "type" o
                    else VStr (structuredType cellType))
             :: without_key "type" o),
     if declaredType cellType =? "abstract"
     then [console_warn STRUCTURED_WARNING (VObj o)] else []).
Proof.
  intros Hnd. cbn [resolveCell _isJSON]. unfold structuredType, _deepCopy.
  change (match cellType with Some t => t | None => "abstract" end)
    with (declaredType cellType).
  destruct (declaredType cellType =? "abstract");
    rewrite Object_assign_type by exact Hnd; reflexivity.
Qed.

Lemma proper_array (items : list jsvalue) :
  proper (VArr items) <-> Forall proper items.
Proof.
  induction items as [| x items IH].
  - split; [constructor | intros _; exact I].
  - split.
    + intros [Hx Hrest]. constructor; [exact Hx | apply IH; exact Hrest].
    + intros H. inversion H as [| ? ? Hx Hrest]; subst.
      split; [exact Hx | apply IH; exact Hrest].
Qed.

(** Every property of a structured value is kept as it is in the resolved
    cell, its own [type] included; only a value without a [type] gets one,
    [text] or the declared type.  The warning is written exactly when no
    type, or [abstract], is declared. *)
Theorem resolveCell_structured_props (o : object) (cellType : option string) :
  NoDup (keys o) ->
  (forall k,
     prop k (fst (resolveCell (VObj o) cellType))
     = if (k =? "type") && negb (obj_has "type" o)
       then VStr (structuredType cellType) else obj_get k o) /\
  snd (resolveCell (VObj o) cellType)
  = if declaredType cellType =? "abstract"
    then [console_warn STRUCTURED_WARNING (VObj o)] else [].
Proof.
  intros Hnd. rewrite (resolveCell_structured o cellType Hnd).
  split; [| reflexivity].
  intros k. cbn [fst prop obj_get].
  destruct (String.eqb_spec k "type") as [-> | Hne]; cbn [andb].
  - destruct (obj_has "type" o); reflexivity.
  - apply obj_get_without_key. exact Hne.
Qed.

Lemma resolveCell_structured_props_witness :
  prop "url"
    (fst (resolveCell (VObj [("value", VStr "APOE"); ("url", VStr "/gene/APOE")])
            (Some "link")))
  = VStr "/gene/APOE" /\
  prop "type"
    (fst (resolveCell (VObj [("value", VStr "APOE"); ("url", VStr "/gene/APOE")])
            (Some "link")))
  = VStr "link".
Proof.
  assert (Hnd : NoDup (keys [("value", VStr "APOE"); ("url", VStr "/gene/APOE")]))
    by (repeat constructor; cbn [In]; intuition discriminate).
  split.
  - exact (proj1 (resolveCell_structured_props _ (Some "link") Hnd) "url").
  - exact (proj1 (resolveCell_structured_props _ (Some "link") Hnd) "type").
Defined.

(** Resolving a single cell a second time. *)
Lemma resolveCell_again_leaf (v : jsvalue) (cellType cellType' : option string) :
  is_array v = false -> proper v ->
  fst (resolveCell (fst (resolveCell v cellType)) cellType')
  = fst (resolveCell v cellType).
Proof.
  intros Ha Hp.
  destruct (_isJSON v) eqn:Hj.
  - destruct v as [| | | | | o |]; try discriminate Hj. cbn [proper] in Hp.
    rewrite (resolveCell_structured o cellType Hp). cbn [fst].
    rewrite resolveCell_structured.
    + cbn [fst obj_has obj_get String.eqb Ascii.eqb Bool.eqb orb].
      cbn [without_key filter fst String.eqb Ascii.eqb Bool.eqb negb].
      fold (without_key "type" (without_key "type" o)).
      rewrite (without_key_fresh "type" (without_key "type" o)); [reflexivity |].
      intros Hin. apply keys_without_key in Hin as [_ Hne]. congruence.
    + cbn [keys map fst]. constructor.
      * intros Hin. apply keys_without_key in Hin as [_ Hne]. congruence.
      * apply NoDup_without_key. exact Hp.
  - rewrite (resolveCell_raw v cellType Ha Hj). cbn [fst].
    rewrite resolveCell_structured.
    + reflexivity.
    + repeat constructor; cbn [In]; intuition discriminate.
Qed.

(** Resolution is idempotent: resolving a resolved cell again, with any
    declared type, gives the same cell. *)
Theorem resolveCell_idempotent (v : jsvalue) (cellType cellType' : option string) :
  proper v ->
  fst (resolveCell (fst (resolveCell v cellType)) cellType')
  = fst (resolveCell v cellType).
Proof.
  induction v as [v Ha | items IH] using cells_ind; intros Hp.
  - apply resolveCell_again_leaf; assumption.
  - rewrite (resolveCell_array items). cbn [fst].
    rewrite resolveCell_array. cbn [fst]. f_equal.
    rewrite map_map. apply map_ext_in. intros c Hc.
    apply proper_array in Hp.
    rewrite Forall_forall in IH, Hp. apply IH; auto.
Qed.

Lemma resolveCell_idempotent_witness :
  fst (resolveCell
         (fst (resolveCell
                 (VArr [VStr "APOE"; VObj [("value", VNum 19%float)]]) None))
         (Some "float"))
  = fst (resolveCell (VArr [VStr "APOE"; VObj [("value", VNum 19%float)]]) None).
Proof.
  apply (resolveCell_idempotent
           (VArr [VStr "APOE"; VObj [("value", VNum 19%float)]]) None
           (Some "float")).
  cbn [proper keys map fst]. repeat split. repeat constructor.
  cbn [In]. tauto.
Defined.

(** The warning is written once for each structured value when no type, or
    [abstract], is declared, and never when another type is declared. *)
Theorem resolveCell_warning_count (v : jsvalue) (cellType : option string) :
  List.length (snd (resolveCell v cellType))
  = if declaredType cellType =? "abstract" then countStructured v else 0.
Proof.
  induction v as [v Ha | items IH] using cells_ind.
  - destruct v as [| | b | n | s | o | l]; try discriminate Ha;
      try (cbn; destruct (declaredType cellType =? "abstract"); reflexivity).
    cbn [resolveCell _isJSON countStructured].
    change (match cellType with Some t => t | None => "abstract" end)
      with (declaredType cellType).
    destruct (declaredType cellType =? "abstract"); reflexivity.
  - rewrite resolveCell_array. cbn [snd countStructured].
    rewrite length_concat, map_map.
    destruct (declaredType cellType =? "abstract");
      induction IH as [| c items Hc _ IHl]; try reflexivity;
      cbn [map]; change (list_sum (?x :: ?l)) with (x + list_sum l);
      rewrite Hc, IHl; reflexivity.
Qed.

Lemma obj_has_set (k k' : string) (v : jsvalue) (o : object) :
  obj_has k o = true -> obj_has k (obj_set k' v o) = true.
Proof.
  induction o as [| [k0 v0] o IH]; cbn [obj_has obj_set]; intros H.
  - discriminate H.
  - destruct (k' =? k0) eqn:E; cbn [obj_has].
    + apply String.eqb_eq in E. subst k0. apply orb_true_iff in H as [H | H].
      * rewrite H. reflexivity.
      * rewrite H. apply orb_true_r.
    + apply orb_true_iff in H as [H | H].
      * rewrite H. reflexivity.
      * rewrite (IH H). apply orb_true_r.
Qed.

Lemma obj_has_assign (k : string) (source target : object) :
  obj_has k target = true ->
  obj_has k (fold_left (fun t kv => obj_set (fst kv) (snd kv) t) source target)
  = true.
Proof.
  revert target.
  induction source as [| [k0 v0] source IH]; intros target H; cbn [fold_left].
  - exact H.
  - apply IH. apply obj_has_set. exact H.
Qed.

Lemma resolveCell_has_type_leaf (v : jsvalue) (cellType : option string) :
  is_array v = false ->
  exists o, fst (resolveCell v cellType) = VObj o /\ obj_has "type" o = true.
Proof.
  intros Ha.
  destruct v as [| | b | n | s | o | l]; try discriminate Ha;
    try (eexists; split; reflexivity).
  cbn [resolveCell _isJSON].
  destruct (match cellType with Some t => t | None => "abstract" end =? "abstract");
    cbn [fst]; unfold Object_assign; (eexists; split; [reflexivity |]);
    apply obj_has_assign; reflexivity.
Qed.

(** Whatever the raw value and the declared type, a single resolved cell is
    a plain object that has a [type] property. *)
Theorem resolveCell_has_type (v : jsvalue) (cellType : option string) :
  is_array v = false ->
  exists o, fst (resolveCell v cellType) = VObj o /\ obj_has "type" o = true.
Proof. exact (resolveCell_has_type_leaf v cellType). Qed.

Lemma resolveCell_has_type_witness :
  exists o, fst (resolveCell VNull None) = VObj o /\ obj_has "type" o = true.
Proof.
  exact (resolveCell_has_type VNull None eq_refl).
Defined.

(** *** The type vocabulary *)

(** Whatever [validateCellType] returns is a member of the vocabulary, and
    validating it again returns it unchanged. *)
Theorem validateCellType_sound (ctype : option string) (t : string) :
  validateCellType ctype = Ok t ->
  In t CELL_TYPE_VALIDATION_REFERENCE /\ validateCellType (Some t) = Ok t.
Proof.
  unfold validateCellType. destruct ctype as [c |]; intros H.
  - destruct (includes CELL_TYPE_VALIDATION_REFERENCE c) eqn:E;
      [| discriminate H].
    injection H as <-. rewrite E. split; [| reflexivity].
    unfold includes in E. apply existsb_exists in E as (x & Hx & Eq).
    apply String.eqb_eq in Eq. subst x. exact Hx.
  - injection H as <-. split; [| reflexivity]. cbn. tauto.
Qed.

Lemma validateCellType_sound_witness :
  In "percentage_bar" CELL_TYPE_VALIDATION_REFERENCE /\
  validateCellType (Some "percentage_bar") = Ok "percentage_bar".
Proof.
  exact (validateCellType_sound (Some "percentage_bar") "percentage_bar" eq_refl).
Defined.

(** *** The null test *)

(** The null test does not see letter case: two strings that differ by
    case only are both null or both not. *)
Theorem isNull_case_insensitive (s t : string) :
  caseInsensitiveEq s t = true -> __isNull (VStr s) = __isNull (VStr t).
Proof.
  unfold caseInsensitiveEq. intros H. apply String.eqb_eq in H.
  rewrite !CellFacts.isNull_spec.
  assert (He : (s =? "") = (t =? "")).
  { destruct s, t; cbn [toLowerCase] in H; try discriminate H; reflexivity. }
  unfold isNASentinel, caseInsensitiveEq. rewrite He, H. reflexivity.
Qed.

Lemma isNull_case_insensitive_witness :
  __isNull (VStr "n/a") = __isNull (VStr "N/A").
Proof.
  exact (isNull_case_insensitive "n/a" "N/A" eq_refl).
Defined.

(** *** The accessor and the renderer after the resolver *)

Section Accessor.

Variable Number_toString : float -> string.

Local Notation "'getCellValue'" := (Cell.getCellValue Number_toString).

Lemma getCellValue_typed (o : object) (t : string) :
  obj_get "type" o = VStr t ->
  getCellValue (VObj o)
  = Ok (if t =? "boolean" then __resolveBooleanValue (VObj o)
        else __resolveValue (VObj o)).
Proof.
  intros Ht. rewrite CellFacts.getCellValue_object, Ht.
  destruct (String.eqb_spec t "boolean") as [-> | Hne]; [reflexivity |].
  repeat (match goal with
          | |- context [match ?x with EmptyString => _ | String _ _ => _ end] =>
              destruct x as [| [[] [] [] [] [] [] [] []] ?]; try reflexivity
          end).
  exfalso. apply Hne. reflexivity.
Qed.

Lemma sequence_all_ok {A B : Type} (f : A -> result B) (l : list A) :
  Forall (fun a => exists b, f a = Ok b) l ->
  exists bs, sequence (map f l) = Ok bs.
Proof.
  induction 1 as [| a l (b & Hb) _ (bs & IH)]; cbn [map sequence].
  - exists []. reflexivity.
  - exists (b :: bs). rewrite Hb, IH. reflexivity.
Qed.

Lemma sequence_throws {A B : Type} (f : A -> result B) (l : list A) (a : A) :
  In a l -> (exists e, f a = Throw e) ->
  exists e, sequence (map f l) = Throw e.
Proof.
  intros Hin (e & He).
  induction l as [| x l IH]; [contradiction |].
  cbn [map sequence]. destruct Hin as [-> | Hin].
  - rewrite He. exists e. reflexivity.
  - destruct (f x) as [b | e']; [| exists e'; reflexivity].
    destruct (IH Hin) as (e'' & ->). exists e''. reflexivity.
Qed.

(** The accessor never throws on what the resolver returns, whatever the
    raw value (also [null], and arrays that hold [null]) and the declared
    type. *)
Theorem resolve_then_access_returns (v : jsvalue) (cellType : option string) :
  exists r, getCellValue (fst (resolveCell v cellType)) = Ok r.
Proof.
  induction v as [v Ha | items IH] using cells_ind.
  - destruct (resolveCell_has_type_leaf v cellType Ha) as (o & -> & _).
    rewrite CellFacts.getCellValue_object. eexists. reflexivity.
  - rewrite resolveCell_array. cbn [fst Cell.getCellValue].
    rewrite map_map.
    destruct (sequence_all_ok
                (fun c => getCellValue (fst (resolveCell c cellType))) items IH)
      as (rs & ->).
    eexists. reflexivity.
Qed.

(** On its own the accessor throws on an array that holds [null] or
    [undefined]. *)
Theorem getCellValue_null_element (cells : list jsvalue) (c : jsvalue) :
  In c cells -> isNullish c = true ->
  exists e, getCellValue (VArr cells) = Throw e.
Proof.
  intros Hin Hc. cbn [Cell.getCellValue].
  destruct (sequence_throws getCellValue cells c Hin) as (e & ->).
  - destruct c; try discriminate Hc; eexists; reflexivity.
  - exists e. reflexivity.
Qed.

(** A raw value the null test accepts ([null], [undefined], a sentinel
    string), resolved with any declared type or none, is accessed as
    [NA]. *)
Theorem null_raw_value_gives_NA (v : jsvalue) (cellType : option string) :
  __isNull v = true ->
  getCellValue (fst (resolveCell v cellType)) = Ok (VStr "NA").
Proof.
  intros Hnull.
  assert (Hraw : is_array v = false /\ _isJSON v = false).
  { rewrite CellFacts.isNull_spec in Hnull.
    destruct v; try discriminate Hnull; split; reflexivity. }
  destruct Hraw as [Ha Hj].
  rewrite (resolveCell_raw v cellType Ha Hj). cbn [fst].
  rewrite (getCellValue_typed _ (declaredType cellType)) by reflexivity.
  unfold __resolveBooleanValue, __resolveValue, _hasOwnProperty, _get.
  cbn [prop obj_get obj_has String.eqb Ascii.eqb Bool.eqb orb truthy].
  rewrite Hnull.
  destruct (declaredType cellType =? "boolean"); reflexivity.
Qed.

(** A scalar the null test rejects, resolved with any declared type but
    [boolean], or with none, is accessed unchanged: also [0], [false], NaN
    and the empty string. *)
Theorem raw_value_roundtrip (v : jsvalue) (cellType : option string) :
  isScalar v = true -> __isNull v = false ->
  cellType <> Some "boolean" ->
  getCellValue (fst (resolveCell v cellType)) = Ok v.
Proof.
  intros Hs Hnull Ht.
  assert (Hraw : is_array v = false /\ _isJSON v = false)
    by (destruct v; try discriminate Hs; split; reflexivity).
  destruct Hraw as [Ha Hj].
  rewrite (resolveCell_raw v cellType Ha Hj). cbn [fst].
  rewrite (getCellValue_typed _ (declaredType cellType)) by reflexivity.
  destruct (String.eqb_spec (declaredType cellType) "boolean") as [E | _].
  - exfalso. apply Ht. destruct cellType as [t |]; cbn [declaredType] in E.
    + rewrite E. reflexivity.
    + discriminate E.
  - unfold __resolveValue, _hasOwnProperty, _get.
    cbn [prop obj_get obj_has String.eqb Ascii.eqb Bool.eqb orb].
    rewrite Hnull. reflexivity.
Qed.

(** A scalar the null test rejects, resolved as [boolean], is accessed as
    [TRUE] when it is the boolean [true] and as [FALSE] otherwise. *)
Theorem boolean_raw_value (v : jsvalue) :
  isScalar v = true -> __isNull v = false ->
  getCellValue (fst (resolveCell v (Some "boolean")))
  = Ok (VStr (if is_true v then "TRUE" else "FALSE")).
Proof.
  intros Hs Hnull.
  assert (Hraw : is_array v = false /\ _isJSON v = false)
    by (destruct v; try discriminate Hs; split; reflexivity).
  destruct Hraw as [Ha Hj].
  rewrite (resolveCell_raw v (Some "boolean") Ha Hj). cbn [fst].
  rewrite (getCellValue_typed _ "boolean") by reflexivity.
  unfold __resolveBooleanValue.
  cbn [prop obj_get String.eqb Ascii.eqb Bool.eqb is_undefined negb].
  rewrite Hnull. destruct (is_true v); reflexivity.
Qed.

(** A structured value without a [type] of its own, resolved with a type
    other than [boolean], is accessed as its [value] property, or as its
    own [naString] (else [NA]) when the null test accepts that value. *)
Theorem structured_value_access (o : object) (cellType : option string) :
  NoDup (keys o) -> obj_has "type" o = false ->
  structuredType cellType <> "boolean" ->
  getCellValue (fst (resolveCell (VObj o) cellType))
  = Ok (if __isNull (obj_get "value" o) then nullSubstitute o
        else obj_get "value" o).
Proof.
  intros Hnd Hfresh Ht.
  rewrite (resolveCell_structured o cellType Hnd). cbn [fst]. rewrite Hfresh.
  rewrite without_key_fresh by (apply obj_has_false; exact Hfresh).
  rewrite (getCellValue_typed _ (structuredType cellType)) by reflexivity.
  destruct (String.eqb_spec (structuredType cellType) "boolean") as [E | _];
    [contradiction |].
  reflexivity.
Qed.

(** A cell that is not boolean and has no [naString] is never accessed as
    [null] or [undefined]. *)
Theorem accessor_result_not_null (o : object) (r : jsvalue) :
  obj_get "type" o <> VStr "boolean" -> obj_has "naString" o = false ->
  getCellValue (VObj o) = Ok r -> isNullish r = false.
Proof.
  intros Ht Hna Hr.
  rewrite (CellFacts.nonboolean_cell_value Number_toString o Ht) in Hr.
  unfold nullSubstitute in Hr. rewrite Hna in Hr.
  injection Hr as <-.
  destruct (obj_get "value" o) as [| | b | n | s | o' | l]; try reflexivity.
  destruct (negb (s =? "") && isNASentinel s); reflexivity.
Qed.

End Accessor.

(** With no declared type, or with [abstract] or [text], a single raw value
    that has no [type] of its own is rendered by the [Text] component. *)
Theorem undeclared_renders_as_text (v : jsvalue) (cellType : option string) :
  is_array v = false -> obj_has "type" (own_props v) = false ->
  cellType = None \/ cellType = Some "abstract" \/ cellType = Some "text" ->
  renderCell (fst (resolveCell v cellType))
  = Ok (Text_element (fst (resolveCell v cellType))).
Proof.
  intros Ha Hfresh Hct.
  assert (Ht : exists t, prop "type" (fst (resolveCell v cellType)) = VStr t
                         /\ (t =? "abstract") || (t =? "text") = true).
  { destruct v as [| | b | n | s | o | l]; try discriminate Ha;
      try (destruct Hct as [-> | [-> | ->]]; eexists; split; reflexivity).
    cbn [own_props] in Hfresh.
    destruct Hct as [-> | [-> | ->]];
      cbn [resolveCell _isJSON String.eqb Ascii.eqb Bool.eqb fst];
      unfold _deepCopy; rewrite CellFacts.Object_assign_keeps by exact Hfresh;
      eexists; split; reflexivity. }
  destruct Ht as (t & Hprop & Htext).
  destruct (resolveCell_has_type_leaf v cellType Ha) as (o & Ho & _).
  rewrite Ho in *. cbn [renderCell]. rewrite Hprop, Htext. reflexivity.
Qed.

(** *** Instances *)

Lemma getCellValue_null_element_witness :
  exists e,
    Cell.getCellValue integer_Number_toString
      (VArr [VObj [("type", VStr "text"); ("value", VStr "APOE")]; VNull])
    = Throw e.
Proof.
  apply (getCellValue_null_element integer_Number_toString
           [VObj [("type", VStr "text"); ("value", VStr "APOE")]; VNull] VNull).
  - cbn [In]. right. left. reflexivity.
  - reflexivity.
Defined.

Lemma null_raw_value_gives_NA_witness :
  Cell.getCellValue integer_Number_toString
    (fst (resolveCell (VStr "n/a") (Some "boolean"))) = Ok (VStr "NA").
Proof.
  exact (null_raw_value_gives_NA integer_Number_toString (VStr "n/a")
           (Some "boolean") eq_refl).
Defined.

Lemma raw_value_roundtrip_witness :
  Cell.getCellValue integer_Number_toString
    (fst (resolveCell (VNum 0%float) None)) = Ok (VNum 0%float).
Proof.
  apply (raw_value_roundtrip integer_Number_toString (VNum 0%float) None).
  - reflexivity.
  - reflexivity.
  - discriminate.
Defined.

Lemma boolean_raw_value_witness :
  Cell.getCellValue integer_Number_toString
    (fst (resolveCell (VStr "yes") (Some "boolean"))) = Ok (VStr "FALSE").
Proof.
  exact (boolean_raw_value integer_Number_toString (VStr "yes") eq_refl eq_refl).
Defined.

Lemma structured_value_access_witness :
  Cell.getCellValue integer_Number_toString
    (fst (resolveCell
            (VObj [("value", VStr "NULL"); ("naString", VStr "N/A")])
            (Some "link")))
  = Ok (VStr "N/A").
Proof.
  apply (structured_value_access integer_Number_toString
           [("value", VStr "NULL"); ("naString", VStr "N/A")] (Some "link")).
  - repeat constructor; cbn [In]; intuition discriminate.
  - reflexivity.
  - discriminate.
Defined.

Lemma accessor_result_not_null_witness :
  isNullish (VStr "NA") = false.
Proof.
  exact (accessor_result_not_null integer_Number_toString
           [("type", VStr "float"); ("value", VNull)] (VStr "NA")
           ltac:(discriminate) eq_refl eq_refl).
Defined.

Lemma undeclared_renders_as_text_witness :
  renderCell (fst (resolveCell (VObj [("value", VStr "APOE")]) None))
  = Ok (Text_element (fst (resolveCell (VObj [("value", VStr "APOE")]) None))).
Proof.
  apply (undeclared_renders_as_text (VObj [("value", VStr "APOE")]) None).
  - reflexivity.
  - reflexivity.
  - left. reflexivity.
Defined.

End CellProps.
